(** * lcd1602: the PCF8574 / HD44780 character display driver

    A shallow embedding of [lcd_io.c] (bus transport: the file descriptor,
    the register image, the nibble transfers, the busy poll) and of
    [lcd_ctrl.c] (display instructions, [LCDInit], [DisplayLine]), with the
    properties of the driver stated over the trace of system calls the code
    issues on the I2C character device. *)

From Stdlib Require Import ZArith List Bool Lia.
From Stdlib Require String.
Import ListNotations String.StringSyntax.
Delimit Scope string_scope with string.
Local Open Scope Z_scope.

(** ** Error codes

    [EOK] is defined by the sources; the others come from the Linux
    [<errno.h>]. *)

Definition EOK : Z := 0.
Definition ENXIO : Z := 6.
Definition EBADF : Z := 9.
Definition ENODEV : Z := 19.
Definition EINVAL : Z := 22.

(** Conversion of an [int] argument to a [uint8_t] parameter. *)
Definition u8 (z : Z) : Z := z mod 256.

(** ** The control register

    [CtrlReg] is the bit-field struct of [lcd_io.c]; it shares its storage
    with the byte [regval] through an anonymous union.  The fields are laid
    out from the least significant bit: RS is bit 0, RW bit 1, EN bit 2
    (the comment of [latch] names it "PCF8574 bit 2"), LED bit 3 and D4 the
    high nibble. *)

Record CtrlReg : Type := mkCtrlReg {
  RS : bool;
  RW : bool;
  EN : bool;
  LED : bool;
  D4 : Z
}.

Definition set_RS (v : bool) (r : CtrlReg) : CtrlReg :=
  mkCtrlReg v (RW r) (EN r) (LED r) (D4 r).
Definition set_RW (v : bool) (r : CtrlReg) : CtrlReg :=
  mkCtrlReg (RS r) v (EN r) (LED r) (D4 r).
Definition set_EN (v : bool) (r : CtrlReg) : CtrlReg :=
  mkCtrlReg (RS r) (RW r) v (LED r) (D4 r).
Definition set_LED (v : bool) (r : CtrlReg) : CtrlReg :=
  mkCtrlReg (RS r) (RW r) (EN r) v (D4 r).
(** An assignment to the 4-bit field keeps the low four bits of the value. *)
Definition set_D4 (v : Z) (r : CtrlReg) : CtrlReg :=
  mkCtrlReg (RS r) (RW r) (EN r) (LED r) (Z.land v 0xF).

(** The byte seen through the [regval] member of the union. *)
Definition pack (r : CtrlReg) : Z :=
  Z.lor (Z.b2z (RS r))
    (Z.lor (Z.shiftl (Z.b2z (RW r)) 1)
       (Z.lor (Z.shiftl (Z.b2z (EN r)) 2)
          (Z.lor (Z.shiftl (Z.b2z (LED r)) 3)
             (Z.shiftl (Z.land (D4 r) 0xF) 4)))).

(** ** The device context [struct _LCDDev] *)

Record LCDDev : Type := mkLCDDev {
  device : option String.string;   (* char *device, None for NULL *)
  fd : Z;
  busy : bool;
  exclusive : bool;
  address : Z;
  AddressCounter : Z;
  cx : Z;
  cy : Z;
  reg : CtrlReg
}.

Definition regval (d : LCDDev) : Z := pack (reg d).

Definition set_device (v : option String.string) (d : LCDDev) : LCDDev :=
  mkLCDDev v (fd d) (busy d) (exclusive d) (address d) (AddressCounter d)
    (cx d) (cy d) (reg d).
Definition set_fd (v : Z) (d : LCDDev) : LCDDev :=
  mkLCDDev (device d) v (busy d) (exclusive d) (address d) (AddressCounter d)
    (cx d) (cy d) (reg d).
Definition set_busy (v : bool) (d : LCDDev) : LCDDev :=
  mkLCDDev (device d) (fd d) v (exclusive d) (address d) (AddressCounter d)
    (cx d) (cy d) (reg d).
Definition set_exclusive (v : bool) (d : LCDDev) : LCDDev :=
  mkLCDDev (device d) (fd d) (busy d) v (address d) (AddressCounter d)
    (cx d) (cy d) (reg d).
Definition set_address (v : Z) (d : LCDDev) : LCDDev :=
  mkLCDDev (device d) (fd d) (busy d) (exclusive d) v (AddressCounter d)
    (cx d) (cy d) (reg d).
Definition set_AddressCounter (v : Z) (d : LCDDev) : LCDDev :=
  mkLCDDev (device d) (fd d) (busy d) (exclusive d) (address d) v
    (cx d) (cy d) (reg d).
Definition set_cx (v : Z) (d : LCDDev) : LCDDev :=
  mkLCDDev (device d) (fd d) (busy d) (exclusive d) (address d)
    (AddressCounter d) v (cy d) (reg d).
Definition set_cy (v : Z) (d : LCDDev) : LCDDev :=
  mkLCDDev (device d) (fd d) (busy d) (exclusive d) (address d)
    (AddressCounter d) (cx d) v (reg d).
Definition set_reg (v : CtrlReg) (d : LCDDev) : LCDDev :=
  mkLCDDev (device d) (fd d) (busy d) (exclusive d) (address d)
    (AddressCounter d) (cx d) (cy d) v.

(** A pointer to the device context: the program owns one context, so a
    [LCDDev *] is either [NULL] or the address of that context. *)
Inductive ptr : Type := NULL | PDEV.

(** ** The operating system and the bus

    The driver reaches the hardware through [open], [ioctl], [write],
    [read] and [close].  What these calls return is not decided by the
    driver: an [Oracle] gives the result of the n-th call of each kind.
    The calls made so far are recorded, oldest first, in [trace]. *)

Inductive Event : Type :=
| EvOpen (path : String.string) (ret : Z)
| EvIoctl (f addr ret : Z)
| EvWrite (f byte : Z)
| EvRead (f : Z) (got : option Z)
| EvClose (f : Z).

Record Oracle : Type := mkOracle {
  open_ret : nat -> Z;          (* descriptor, or -1 *)
  open_errno : nat -> Z;        (* errno left by a failed open *)
  ioctl_ret : nat -> Z;
  read_ret : nat -> option Z    (* the byte read, None when read fails *)
}.

Record World : Type := mkWorld {
  oracle : Oracle;
  n_open : nat;
  n_ioctl : nat;
  n_read : nat;
  trace : list Event
}.

Definition State : Type := (LCDDev * World)%type.

(** ** The monad of driver code

    A run ends with a result and a state, or exhausts the budget of the
    busy poll ([Timeout]), or reads outside a buffer ([Undef]). *)

Inductive outcome (A : Type) : Type :=
| Ok (a : A) (s : State)
| Timeout
| Undef.
Arguments Ok {A} a s.
Arguments Timeout {A}.
Arguments Undef {A}.

Definition M (A : Type) : Type := State -> outcome A.

Definition ret {A} (a : A) : M A := fun s => Ok a s.

Definition bind {A B} (m : M A) (k : A -> M B) : M B :=
  fun s => match m s with
           | Ok a s' => k a s'
           | Timeout => Timeout
           | Undef => Undef
           end.

Notation "x <- m ;; k" := (bind m (fun x => k))
  (at level 61, m at next level, right associativity).
Notation "m ;; k" := (bind m (fun _ => k))
  (at level 61, right associativity).

Definition get_dev : M LCDDev := fun s => Ok (fst s) s.
Definition mod_dev (f : LCDDev -> LCDDev) : M unit :=
  fun s => Ok tt (f (fst s), snd s).
Definition mod_reg (f : CtrlReg -> CtrlReg) : M unit :=
  mod_dev (fun d => set_reg (f (reg d)) d).

Definition log (e : Event) (w : World) : list Event := trace w ++ [e].

Definition sys_open (path : String.string) : M Z :=
  fun s =>
    let w := snd s in
    let r := open_ret (oracle w) (n_open w) in
    Ok r (fst s, mkWorld (oracle w) (S (n_open w)) (n_ioctl w) (n_read w)
                   (log (EvOpen path r) w)).

(** [errno] as left by the [open] that has just failed. *)
Definition sys_errno : M Z :=
  fun s => Ok (open_errno (oracle (snd s)) (pred (n_open (snd s)))) s.

Definition sys_ioctl (f addr : Z) : M Z :=
  fun s =>
    let w := snd s in
    let r := ioctl_ret (oracle w) (n_ioctl w) in
    Ok r (fst s, mkWorld (oracle w) (n_open w) (S (n_ioctl w)) (n_read w)
                   (log (EvIoctl f addr r) w)).

(** The driver never looks at what [write] returns. *)
Definition sys_write (f byte : Z) : M unit :=
  fun s =>
    let w := snd s in
    Ok tt (fst s, mkWorld (oracle w) (n_open w) (n_ioctl w) (n_read w)
                    (log (EvWrite f byte) w)).

(** [read( fd, &data, 1 )]: the new content of [data]; a failed read leaves
    the variable as it was, and the driver does not check. *)
Definition sys_read (f data : Z) : M Z :=
  fun s =>
    let w := snd s in
    let r := read_ret (oracle w) (n_read w) in
    Ok (match r with Some b => u8 b | None => data end)
       (fst s, mkWorld (oracle w) (n_open w) (n_ioctl w) (S (n_read w))
                 (log (EvRead f r) w)).

Definition sys_close (f : Z) : M unit :=
  fun s =>
    let w := snd s in
    Ok tt (fst s, mkWorld (oracle w) (n_open w) (n_ioctl w) (n_read w)
                    (log (EvClose f) w)).

(** ** lcd_io.c: the bus transport *)

Module lcd_io.

(** The context [InitDev] builds: [calloc] zeroes the struct, then the
    defaults are stored. *)
Definition InitDev : LCDDev :=
  mkLCDDev (Some "/dev/i2c-1"%string) (-1) false false 0x27 0 0 0
    (mkCtrlReg false false false true 0).

Definition LCDOpen (pDev : ptr) : M Z :=
  match pDev with
  | NULL => ret EINVAL
  | PDEV =>
    d <- get_dev ;;
    if fd d =? -1 then
      match device d with
      | Some path =>
        f <- sys_open path ;;
        if negb (f =? -1) then
          rc <- sys_ioctl f (address d) ;;
          if 0 <=? rc then
            sys_write f (regval d) ;;
            mod_dev (set_fd f) ;;
            ret EOK
          else
            sys_close f ;;
            ret ENXIO
        else sys_errno
      | None => ret ENODEV
      end
    else ret EOK
  end.

Definition LCDClose (pDev : ptr) : M Z :=
  match pDev with
  | NULL => ret EINVAL
  | PDEV =>
    d <- get_dev ;;
    if negb (fd d =? -1) && eqb (exclusive d) false then
      sys_close (fd d) ;;
      mod_dev (set_fd (-1)) ;;
      ret EOK
    else ret EOK
  end.

Definition writeReg (pDev : ptr) : M Z :=
  match pDev with
  | NULL => ret EINVAL
  | PDEV =>
    d <- get_dev ;;
    let f := fd d in
    if negb (f =? -1) then
      sys_write f (regval d) ;;
      ret EOK
    else
      match device d with
      | Some path =>
        f <- sys_open path ;;
        if negb (f =? -1) then
          rc <- sys_ioctl f (address d) ;;
          result <- (if 0 <=? rc
                     then sys_write f (regval d) ;; ret EOK
                     else ret ENXIO) ;;
          sys_close f ;;
          ret result
        else sys_errno
      | None => ret ENODEV
      end
  end.

Definition latch (pDev : ptr) : M Z :=
  match pDev with
  | NULL => ret EINVAL
  | PDEV =>
    mod_reg (set_EN true) ;;
    writeReg pDev ;;
    mod_reg (set_EN false) ;;
    writeReg pDev ;;
    ret EOK
  end.

(** [readByte( pDev, &val )]: the result and the content of [*val] after
    the call, [val] being its content before. *)
Definition readByte (pDev : ptr) (val : Z) : M (Z * Z) :=
  match pDev with
  | NULL => ret (EINVAL, val)
  | PDEV =>
    d <- get_dev ;;
    if negb (fd d =? -1) then
      let f := fd d in
      mod_reg (set_RS false) ;;
      mod_reg (set_RW true) ;;
      mod_reg (set_D4 0x0F) ;;
      d1 <- get_dev ;;
      sys_write f (regval d1) ;;
      mod_reg (set_EN true) ;;
      d2 <- get_dev ;;
      sys_write f (regval d2) ;;
      data <- sys_read f 0 ;;
      let data_high := Z.land data 0xF0 in
      mod_reg (set_EN false) ;;
      d3 <- get_dev ;;
      sys_write f (regval d3) ;;
      mod_reg (set_EN true) ;;
      d4 <- get_dev ;;
      sys_write f (regval d4) ;;
      data <- sys_read f data ;;
      let data_low := Z.shiftr (Z.land data 0xF0) 4 in
      mod_reg (set_EN false) ;;
      d5 <- get_dev ;;
      sys_write f (regval d5) ;;
      ret (EOK, Z.lor data_high data_low)
    else ret (EBADF, val)
  end.

Definition readStatus (pDev : ptr) : M Z :=
  match pDev with
  | NULL => ret EINVAL
  | PDEV =>
    d <- get_dev ;;
    if negb (fd d =? -1) then
      rv <- readByte pDev 0 ;;
      let (result, val) := (rv : Z * Z) in
      (if result =? EOK then
         mod_dev (set_busy (negb (Z.land val 0x80 =? 0))) ;;
         mod_dev (set_AddressCounter (Z.land val 0x7F)) ;;
         mod_dev (fun d => set_cx (Z.land (AddressCounter d) 0x3F + 1) d) ;;
         mod_dev (fun d => set_cy (if 0x40 <=? AddressCounter d then 2 else 1) d)
       else ret tt) ;;
      ret result
    else ret EBADF
  end.

Definition GetStatus (pDev : ptr) : M Z :=
  match pDev with
  | NULL => ret EINVAL
  | PDEV =>
    d <- get_dev ;;
    let f := fd d in
    if negb (f =? -1) then readStatus pDev
    else
      match device d with
      | Some path =>
        f <- sys_open path ;;
        if negb (f =? -1) then
          rc <- sys_ioctl f (address d) ;;
          result <- (if 0 <=? rc
                     then mod_dev (set_fd f) ;; readStatus pDev
                     else ret ENXIO) ;;
          mod_dev (set_fd (-1)) ;;
          sys_close f ;;
          ret result
        else sys_errno
      | None => ret ENODEV
      end
  end.

(** The loop [do { result = GetStatus( pDev ); } while( pDev->busy );] with
    a budget of [fuel] status requests. *)
Fixpoint poll (fuel : nat) (pDev : ptr) : M Z :=
  match fuel with
  | O => fun _ => Timeout
  | S k =>
    result <- GetStatus pDev ;;
    d <- get_dev ;;
    if busy d then poll k pDev else ret result
  end.

Definition writeByte (fuel : nat) (pDev : ptr) (rs val : Z) : M Z :=
  let rs := u8 rs in
  let val := u8 val in
  match pDev with
  | NULL => ret EINVAL
  | PDEV =>
    mod_reg (set_RS (negb (rs =? 0))) ;;
    mod_reg (set_RW false) ;;
    mod_reg (set_D4 (Z.shiftr (Z.land val 0xF0) 4)) ;;
    writeReg pDev ;;
    latch pDev ;;
    mod_reg (set_D4 (Z.land val 0x0F)) ;;
    writeReg pDev ;;
    latch pDev ;;
    poll fuel pDev
  end.

Definition Set4BitMode (fuel : nat) (pDev : ptr) : M Z :=
  match pDev with
  | NULL => ret EINVAL
  | PDEV =>
    rc1 <- writeByte fuel pDev 0 0x38 ;;
    mod_reg (set_RS false) ;;
    mod_reg (set_RW false) ;;
    mod_reg (set_D4 0x02) ;;
    writeReg pDev ;;
    latch pDev ;;
    rc2 <- writeByte fuel pDev 0 0x28 ;;
    if (rc1 =? EOK) && (rc2 =? EOK) then ret EOK else ret ENXIO
  end.

(** The accessors.  An output parameter [T *out] is given as [option T]:
    [None] for a null pointer, [Some v] for a cell holding [v]; the cell
    after the call is returned with the result. *)

Definition GetExclusive (pDev : ptr) (out : option bool)
  : M (Z * option bool) :=
  match pDev, out with
  | PDEV, Some _ => d <- get_dev ;; ret (EOK, Some (exclusive d))
  | _, _ => ret (EINVAL, out)
  end.

Definition SetExclusive (pDev : ptr) (v : bool) : M Z :=
  let result := EINVAL in
  match pDev with
  | NULL => ret result
  | PDEV => mod_dev (set_exclusive v) ;; ret result
  end.

Definition GetBacklight (pDev : ptr) (out : option bool)
  : M (Z * option bool) :=
  match pDev, out with
  | PDEV, Some _ => d <- get_dev ;; ret (EOK, Some (LED (reg d)))
  | _, _ => ret (EINVAL, out)
  end.

Definition SetBacklight (pDev : ptr) (backlight : bool) : M Z :=
  let result := EINVAL in
  match pDev with
  | NULL => ret result
  | PDEV =>
    mod_reg (set_LED (if eqb backlight true then true else false)) ;;
    writeReg pDev ;;
    ret result
  end.

Definition GetCursorX (pDev : ptr) (out : option Z) : M (Z * option Z) :=
  match pDev, out with
  | PDEV, Some _ => d <- get_dev ;; ret (EOK, Some (cx d))
  | _, _ => ret (EINVAL, out)
  end.

Definition GetCursorY (pDev : ptr) (out : option Z) : M (Z * option Z) :=
  match pDev, out with
  | PDEV, Some _ => d <- get_dev ;; ret (EOK, Some (cy d))
  | _, _ => ret (EINVAL, out)
  end.

Definition GetAddress (pDev : ptr) (out : option Z) : M (Z * option Z) :=
  match pDev, out with
  | PDEV, Some _ => d <- get_dev ;; ret (EOK, Some (address d))
  | _, _ => ret (EINVAL, out)
  end.

Definition SetAddress (pDev : ptr) (a : Z) : M Z :=
  let a := u8 a in
  match pDev with
  | NULL => ret EINVAL
  | PDEV => mod_dev (set_address a) ;; ret EOK
  end.

Definition GetDeviceName (pDev : ptr) (out : option (option String.string))
  : M (Z * option (option String.string)) :=
  match pDev, out with
  | PDEV, Some _ => d <- get_dev ;; ret (EOK, Some (device d))
  | _, _ => ret (EINVAL, out)
  end.

Definition SetDeviceName (pDev : ptr) (name : option String.string) : M Z :=
  match pDev with
  | NULL => ret EINVAL
  | PDEV => mod_dev (set_device name) ;; ret EOK
  end.

End lcd_io.

(** ** lcd_ctrl.c: the display instructions

    [lcd_ctrl.c] is compiled against the declarations of [lcd_io.h] and
    reaches the transport through four of its functions only.  Its code is
    embedded over that interface; [driver] binds the interface to the
    functions of [lcd_io.c]. *)

Record lcd_io_h : Type := mk_lcd_io_h {
  LCDOpen : ptr -> M Z;
  LCDClose : ptr -> M Z;
  Set4BitMode : ptr -> M Z;
  writeByte : ptr -> Z -> Z -> M Z
}.

Definition driver (fuel : nat) : lcd_io_h :=
  mk_lcd_io_h lcd_io.LCDOpen lcd_io.LCDClose
    (lcd_io.Set4BitMode fuel) (lcd_io.writeByte fuel).

Module lcd_ctrl.
Section Transport.

Variable io : lcd_io_h.

Definition ClearDisplay (pDev : ptr) : M Z :=
  match pDev with
  | NULL => ret EINVAL
  | PDEV => writeByte io pDev 0 0x01
  end.

Definition CursorHome (pDev : ptr) : M Z :=
  match pDev with
  | NULL => ret EINVAL
  | PDEV => writeByte io pDev 0 0x02
  end.

Definition SetADD (pDev : ptr) (loc : Z) : M Z :=
  let loc := u8 loc in
  match pDev with
  | NULL => ret EINVAL
  | PDEV => writeByte io pDev 0 (Z.lor 0x80 loc)
  end.

Definition Cursor (pDev : ptr) : M Z :=
  match pDev with
  | NULL => ret EINVAL
  | PDEV => writeByte io pDev 0 0x0F
  end.

Definition LCDInit (pDev : ptr) : M Z :=
  match pDev with
  | NULL => ret EINVAL
  | PDEV =>
    result <- LCDOpen io pDev ;;
    if result =? EOK then
      result <- Set4BitMode io pDev ;;
      (if result =? EOK then
         ClearDisplay pDev ;;
         CursorHome pDev ;;
         Cursor pDev ;;
         ret tt
       else ret tt) ;;
      LCDClose io pDev ;;
      ret result
    else ret result
  end.



End Transport.
End lcd_ctrl.

(** ** What the bus carries

    The bytes written to the expander and the results of the reads, in the
    order of the calls. *)

Definition bus_writes (t : list Event) : list Z :=
  flat_map (fun e => match e with EvWrite _ b => [b] | _ => [] end) t.

Definition bus_reads (t : list Event) : list (option Z) :=
  flat_map (fun e => match e with EvRead _ r => [r] | _ => [] end) t.

(** The pins of the expander, read off a byte written to it. *)
Definition RS_of (b : Z) : bool := Z.testbit b 0.
Definition RW_of (b : Z) : bool := Z.testbit b 1.
Definition EN_of (b : Z) : bool := Z.testbit b 2.
Definition LED_of (b : Z) : bool := Z.testbit b 3.
Definition D4_of (b : Z) : Z := Z.land (Z.shiftr b 4) 0xF.

(** A latch cycle is a byte with the strobe high followed by a byte with
    the strobe low.  With RW low the controller takes the register select
    and the nibble of the strobed byte: [latched] lists what it takes, in
    order.  Strobes with RW high are status reads and take nothing. *)
Definition edge (prev b : Z) : bool :=
  EN_of prev && negb (EN_of b) && negb (RW_of prev).

Fixpoint latched_from (prev : Z) (bs : list Z) : list (bool * Z) :=
  match bs with
  | [] => []
  | b :: bs' =>
    (if edge prev b then [(RS_of prev, D4_of prev)] else [])
    ++ latched_from b bs'
  end.

Definition latched (bs : list Z) : list (bool * Z) :=
  match bs with
  | [] => []
  | b :: bs' => latched_from b bs'
  end.

(** In 4-bit mode two nibbles, high then low, make one byte. *)
Fixpoint bytes_of (ns : list (bool * Z)) : list (bool * Z) :=
  match ns with
  | (rs, hi) :: (_, lo) :: rest => (rs, 16 * hi + lo) :: bytes_of rest
  | _ => []
  end.

(** The status byte [readByte] assembles from two reads. *)
Definition status_of (r1 r2 : option Z) : Z :=
  let data1 := match r1 with Some b => u8 b | None => 0 end in
  let data2 := match r2 with Some b => u8 b | None => data1 end in
  Z.lor (Z.land data1 0xF0) (Z.shiftr (Z.land data2 0xF0) 4).

Definition status_at (o : Oracle) (n : nat) : Z :=
  status_of (read_ret o n) (read_ret o (S n)).

Definition busy_at (o : Oracle) (n : nat) : bool :=
  negb (Z.land (status_at o n) 0x80 =? 0).

(** ** Vocabulary of the statements *)

(** The bus can be used: a connection is held, or a bus device is named
    and the system lets the driver open and address it. *)
Definition bus_ok (d : LCDDev) (o : Oracle) : Prop :=
  fd d <> -1 \/
  (device d <> None /\
   (forall n, open_ret o n <> -1) /\
   (forall n, 0 <= ioctl_ret o n)).

(** From [w] to [w'] the bytes [ws] were written and the next [k] reads
    were made; the oracle is the same. *)
Definition produces (w w' : World) (ws : list Z) (k : nat) : Prop :=
  oracle w' = oracle w /\
  n_read w' = (n_read w + k)%nat /\
  exists delta,
    trace w' = trace w ++ delta /\
    bus_writes delta = ws /\
    bus_reads delta = map (read_ret (oracle w)) (seq (n_read w) k).

(** The register image a status read leaves behind. *)
Definition status_reg (r : CtrlReg) : CtrlReg :=
  mkCtrlReg false true false (LED r) 0xF.

(** The bytes one status read writes, from the register image [r]. *)
Definition status_writes (r : CtrlReg) : list Z :=
  let r0 := set_D4 0x0F (set_RW true (set_RS false r)) in
  [pack r0; pack (set_EN true r0); pack (set_EN false r0);
   pack (set_EN true r0); pack (set_EN false r0)].

(** The device context after a status read that assembled [st]. *)
Definition after_status (st : Z) (d : LCDDev) : LCDDev :=
  mkLCDDev (device d) (fd d) (negb (Z.land st 0x80 =? 0)) (exclusive d)
    (address d) (Z.land st 0x7F) (Z.land (Z.land st 0x7F) 0x3F + 1)
    (if 0x40 <=? Z.land st 0x7F then 2 else 1) (status_reg (reg d)).

(** The register images of one nibble transfer of [writeByte]: the staged
    image, then the strobe high and low of [latch]. *)
Definition nibble_writes (r : CtrlReg) : list Z :=
  [pack r; pack (set_EN true r); pack (set_EN false r)].

(** The register image [writeByte] stages for a nibble. *)
Definition staged (rs : bool) (nib : Z) (r : CtrlReg) : CtrlReg :=
  set_D4 nib (set_RW false (set_RS rs r)).

(** The nibbles of a byte as [writeByte] stores them in the 4-bit field. *)
Definition hi_nib (v : Z) : Z := Z.land (Z.shiftr (Z.land v 0xF0) 4) 0xF.
Definition lo_nib (v : Z) : Z := Z.land (Z.land v 0x0F) 0xF.

(** The bytes one call of [writeByte] writes before it polls. *)
Definition byte_writes (rs : bool) (v : Z) (r : CtrlReg) : list Z :=
  nibble_writes (staged rs (Z.shiftr (Z.land v 0xF0) 4) r)
  ++ nibble_writes (staged rs (Z.land v 0x0F) (set_EN false r)).

(** A byte [p] on the pins is followed by a byte with strobe level [e]
    without a write being latched. *)
Definition calm (e : bool) (p : Z) : Prop :=
  EN_of p && negb e && negb (RW_of p) = false.

(** The strobe is low, or a read is selected. *)
Definition quiet (p : Z) : Prop := EN_of p = false \/ RW_of p = true.

(** The bytes [ws], whose first has strobe level [e], make the controller
    take the nibbles [ns], whatever was on the pins before and whatever
    follows. *)
Definition carries (e : bool) (ws : list Z) (ns : list (bool * Z)) : Prop :=
  forall p rest, calm e p ->
    exists p', quiet p' /\
      latched_from p (ws ++ rest) = ns ++ latched_from p' rest.

(** The busy poll is answered at its [k]-th status request, counted from
    zero, when the reads start at index [n]. *)
Definition ready_at (o : Oracle) (n k : nat) : Prop :=
  (forall j, (j < k)%nat -> busy_at o (n + 2 * j) = true) /\
  busy_at o (n + 2 * k) = false.

(** Every busy poll is answered within [fuel] status requests, wherever
    the reads start. *)
Definition responsive (o : Oracle) (fuel : nat) : Prop :=
  forall n, exists k, (k < fuel)%nat /\ ready_at o n k.




(** The nibbles the controller takes for one byte sent by [writeByte]. *)
Definition nibbles (rs : bool) (v : Z) : list (bool * Z) :=
  [(rs, hi_nib (u8 v)); (rs, lo_nib (u8 v))].

(** [LCDOpen] will succeed: a connection is held already, or the next
    [open] and [ioctl] do. *)
Definition can_open (d : LCDDev) (w : World) : Prop :=
  fd d <> -1 \/
  (device d <> None /\
   open_ret (oracle w) (n_open w) <> -1 /\
   0 <= ioctl_ret (oracle w) (n_ioctl w)).

(** The world after one system call. *)
Definition after_open (path : String.string) (w : World) : World :=
  mkWorld (oracle w) (S (n_open w)) (n_ioctl w) (n_read w)
    (trace w ++ [EvOpen path (open_ret (oracle w) (n_open w))]).
Definition after_ioctl (f a : Z) (w : World) : World :=
  mkWorld (oracle w) (n_open w) (S (n_ioctl w)) (n_read w)
    (trace w ++ [EvIoctl f a (ioctl_ret (oracle w) (n_ioctl w))]).
Definition after_write (f b : Z) (w : World) : World :=
  mkWorld (oracle w) (n_open w) (n_ioctl w) (n_read w)
    (trace w ++ [EvWrite f b]).
Definition after_read (f : Z) (w : World) : World :=
  mkWorld (oracle w) (n_open w) (n_ioctl w) (S (n_read w))
    (trace w ++ [EvRead f (read_ret (oracle w) (n_read w))]).
Definition after_close (f : Z) (w : World) : World :=
  mkWorld (oracle w) (n_open w) (n_ioctl w) (n_read w)
    (trace w ++ [EvClose f]).

(** ** Concrete worlds, devices and buffers *)

(** A bus that opens as descriptor 3 and a controller that is never busy,
    with the address counter at [ac]. *)
Definition idle_at (ac : Z) : Oracle :=
  mkOracle (fun _ => 3) (fun _ => 0) (fun _ => 0)
    (fun n => if Nat.even n
              then Some (Z.land ac 0x70)
              else Some (Z.shiftl (Z.land ac 0x0F) 4)).

(** No bus device: every [open] fails with ENOENT. *)
Definition no_bus : Oracle :=
  mkOracle (fun _ => -1) (fun _ => 2) (fun _ => 0) (fun _ => None).


Definition boot (o : Oracle) : World := mkWorld o 0 0 0 [].





(** A context that holds descriptor 3 in exclusive mode. *)
Definition held_exclusive : LCDDev :=
  set_exclusive true (set_fd 3 lcd_io.InitDev).


(** ** Vocabulary of the invariants *)

(** Descriptors handed out by [open], and descriptors given back. *)
Definition opened (t : list Event) : nat :=
  length (filter (fun e => match e with
                           | EvOpen _ r => negb (r =? -1)
                           | _ => false
                           end) t).

Definition closed (t : list Event) : nat :=
  length (filter (fun e => match e with EvClose _ => true | _ => false end) t).

(** The descriptors the device context holds: one or none. *)
Definition held (d : LCDDev) : nat := if fd d =? -1 then 0%nat else 1%nat.

(** A transfer on descriptor [f]. *)
Definition on_fd (f : Z) (e : Event) : Prop :=
  match e with
  | EvWrite f' _ => f' = f
  | EvRead f' _ => f' = f
  | _ => False
  end.

(** What a run of the driver keeps, from [s] to [s']: the oracle, the
    configuration (bus device, address, exclusive flag), the backlight
    bit, which every byte written carries, and the account of the
    descriptors: those opened and not closed are in the [fd] field.  A
    [strict] run also keeps the [fd] field and, when a connection is
    held, makes nothing but transfers on it. *)
Definition moves (strict : bool) (s s' : State) : Prop :=
  oracle (snd s') = oracle (snd s) /\
  device (fst s') = device (fst s) /\
  address (fst s') = address (fst s) /\
  exclusive (fst s') = exclusive (fst s) /\
  LED (reg (fst s')) = LED (reg (fst s)) /\
  exists delta,
    trace (snd s') = trace (snd s) ++ delta /\
    Forall (fun b => LED_of b = LED (reg (fst s))) (bus_writes delta) /\
    (opened delta + held (fst s) = closed delta + held (fst s'))%nat /\
    (strict = true ->
     fd (fst s') = fd (fst s) /\
     (fd (fst s) <> -1 -> Forall (on_fd (fd (fst s))) delta)).

(** * Lemmas *)

(** ** The register image as a byte *)

Lemma nibble_cases (v : Z) :
  exists x, Z.land v 0xF = x /\
    (x = 0 \/ x = 1 \/ x = 2 \/ x = 3 \/ x = 4 \/ x = 5 \/ x = 6 \/ x = 7 \/
     x = 8 \/ x = 9 \/ x = 10 \/ x = 11 \/ x = 12 \/ x = 13 \/ x = 14 \/
     x = 15).
Proof.
  exists (Z.land v 0xF). split; [reflexivity|].
  change 0xF with (Z.ones 4). rewrite Z.land_ones by lia.
  change (2 ^ 4) with 16. change (Z.ones 4) with 15.
  assert (0 <= v mod 16 < 16) by (apply Z.mod_pos_bound; lia). lia.
Qed.

Ltac pack_cases r :=
  destruct r as [rs rw en led d4]; unfold pack; cbn [RS RW EN LED D4];
  destruct (nibble_cases d4) as [x [-> Hx]];
  repeat (destruct Hx as [-> | Hx]); try subst x;
  destruct rs, rw, en, led; reflexivity.

Lemma RS_of_pack r : RS_of (pack r) = RS r.
Proof. unfold RS_of. pack_cases r. Qed.
Lemma RW_of_pack r : RW_of (pack r) = RW r.
Proof. unfold RW_of. pack_cases r. Qed.
Lemma EN_of_pack r : EN_of (pack r) = EN r.
Proof. unfold EN_of. pack_cases r. Qed.
Lemma LED_of_pack r : LED_of (pack r) = LED r.
Proof. unfold LED_of. pack_cases r. Qed.
Lemma D4_of_pack r : D4_of (pack r) = Z.land (D4 r) 0xF.
Proof.
  unfold D4_of. destruct r as [rs rw en led d4]; unfold pack; cbn [RS RW EN LED D4];
  destruct (nibble_cases d4) as [x [-> Hx]];
  repeat (destruct Hx as [-> | Hx]); try subst x;
  destruct rs, rw, en, led; reflexivity.
Qed.

(** ** Reading the trace *)

Lemma bus_writes_app a b : bus_writes (a ++ b) = bus_writes a ++ bus_writes b.
Proof. apply flat_map_app. Qed.
Lemma bus_reads_app a b : bus_reads (a ++ b) = bus_reads a ++ bus_reads b.
Proof. apply flat_map_app. Qed.

Lemma produces_refl w : produces w w [] 0.
Proof.
  repeat split; [lia|]. exists []. rewrite app_nil_r. repeat split.
Qed.

Lemma produces_trans w w1 w2 a b j k :
  produces w w1 a j -> produces w1 w2 b k -> produces w w2 (a ++ b) (j + k).
Proof.
  intros (Ho1 & Hn1 & t1 & Ht1 & Hw1 & Hr1) (Ho2 & Hn2 & t2 & Ht2 & Hw2 & Hr2).
  split; [congruence|]. split; [lia|].
  exists (t1 ++ t2). split; [rewrite Ht2, Ht1; apply eq_sym, app_assoc|].
  rewrite bus_writes_app, bus_reads_app, Hw1, Hw2, Hr1, Hr2, Ho1, Hn1.
  split; [reflexivity|]. rewrite seq_app, map_app. reflexivity.
Qed.

Ltac run :=
  cbv [bind ret get_dev mod_dev mod_reg sys_open sys_ioctl sys_write
       sys_read sys_close sys_errno log fst snd].

Ltac produced :=
  split; [reflexivity|]; split; [cbn; lia|];
  eexists; split;
  [cbn [trace after_open after_ioctl after_write after_read after_close];
   repeat rewrite <- app_assoc; cbn [app]; reflexivity
  | split; reflexivity].

Lemma writeReg_ok d w :
  bus_ok d (oracle w) ->
  exists w', lcd_io.writeReg PDEV (d, w) = Ok EOK (d, w') /\
             produces w w' [regval d] 0.
Proof.
  intros Hok. unfold lcd_io.writeReg. run.
  destruct (Z.eqb_spec (fd d) (-1)) as [Hfd | Hfd]; cbn [negb].
  - destruct Hok as [Hok | (Hdev & Hop & Hio)]; [contradiction|].
    destruct (device d) as [path|]; [|congruence].
    destruct (Z.eqb_spec (open_ret (oracle w) (n_open w)) (-1)) as [E | _];
      [apply Hop in E; contradiction|].
    cbn [negb oracle n_ioctl].
    destruct (Z.leb_spec 0 (ioctl_ret (oracle w) (n_ioctl w))) as [_ | E];
      [|specialize (Hio (n_ioctl w)); lia].
    eexists. split; [reflexivity|]. produced.
  - eexists. split; [reflexivity|]. produced.
Qed.

(** ** Stepping through the monad *)

Lemma bind_ok {A B} (m : M A) (k : A -> M B) s a s1 :
  m s = Ok a s1 -> bind m k s = k a s1.
Proof. intros H. unfold bind. rewrite H. reflexivity. Qed.

Lemma bind_ret {A B} (a : A) (k : A -> M B) s : bind (ret a) k s = k a s.
Proof. reflexivity. Qed.

Lemma bind_mod_dev {B} f (k : unit -> M B) d w :
  bind (mod_dev f) k (d, w) = k tt (f d, w).
Proof. reflexivity. Qed.

Lemma bind_mod_reg {B} f (k : unit -> M B) d w :
  bind (mod_reg f) k (d, w) = k tt (set_reg (f (reg d)) d, w).
Proof. reflexivity. Qed.

Lemma bind_get_dev {B} (k : LCDDev -> M B) d w :
  bind get_dev k (d, w) = k d (d, w).
Proof. reflexivity. Qed.

Lemma bind_sys_open {B} p (k : Z -> M B) d w :
  bind (sys_open p) k (d, w)
  = k (open_ret (oracle w) (n_open w)) (d, after_open p w).
Proof. reflexivity. Qed.
Lemma bind_sys_ioctl {B} f a (k : Z -> M B) d w :
  bind (sys_ioctl f a) k (d, w)
  = k (ioctl_ret (oracle w) (n_ioctl w)) (d, after_ioctl f a w).
Proof. reflexivity. Qed.
Lemma bind_sys_write {B} f b (k : unit -> M B) d w :
  bind (sys_write f b) k (d, w) = k tt (d, after_write f b w).
Proof. reflexivity. Qed.
Lemma bind_sys_read {B} f data (k : Z -> M B) d w :
  bind (sys_read f data) k (d, w)
  = k (match read_ret (oracle w) (n_read w) with
       | Some b => u8 b | None => data end) (d, after_read f w).
Proof. reflexivity. Qed.
Lemma bind_sys_close {B} f (k : unit -> M B) d w :
  bind (sys_close f) k (d, w) = k tt (d, after_close f w).
Proof. reflexivity. Qed.

Ltac step :=
  repeat first
    [ rewrite bind_get_dev | rewrite bind_mod_reg | rewrite bind_mod_dev
    | rewrite bind_sys_open | rewrite bind_sys_ioctl | rewrite bind_sys_write
    | rewrite bind_sys_read | rewrite bind_sys_close | rewrite bind_ret ].

Lemma latch_ok d w :
  bus_ok d (oracle w) ->
  exists w',
    lcd_io.latch PDEV (d, w) = Ok EOK (set_reg (set_EN false (reg d)) d, w') /\
    produces w w' [pack (set_EN true (reg d)); pack (set_EN false (reg d))] 0.
Proof.
  intros Hok. unfold lcd_io.latch.
  rewrite bind_mod_reg.
  destruct (writeReg_ok (set_reg (set_EN true (reg d)) d) w) as (w1 & E1 & P1);
    [exact Hok|].
  rewrite (bind_ok _ _ _ _ _ E1), bind_mod_reg.
  destruct (writeReg_ok
              (set_reg (set_EN false (reg (set_reg (set_EN true (reg d)) d)))
                 (set_reg (set_EN true (reg d)) d)) w1) as (w2 & E2 & P2).
  { destruct P1 as (-> & _). exact Hok. }
  rewrite (bind_ok _ _ _ _ _ E2).
  exists w2. split; [reflexivity|].
  exact (produces_trans _ _ _ _ _ _ _ P1 P2).
Qed.

Lemma readByte_ok d w val :
  fd d <> -1 ->
  exists w',
    lcd_io.readByte PDEV val (d, w)
    = Ok (EOK, status_at (oracle w) (n_read w))
         (set_reg (status_reg (reg d)) d, w') /\
    produces w w' (status_writes (reg d)) 2.
Proof.
  intros Hfd. unfold lcd_io.readByte. rewrite bind_get_dev.
  destruct (Z.eqb_spec (fd d) (-1)) as [E | _]; [contradiction|].
  cbn [negb]. step.
  eexists. split; [reflexivity|]. unfold status_writes. produced.
Qed.

Lemma readStatus_ok d w :
  fd d <> -1 ->
  exists w',
    lcd_io.readStatus PDEV (d, w)
    = Ok EOK (after_status (status_at (oracle w) (n_read w)) d, w') /\
    produces w w' (status_writes (reg d)) 2.
Proof.
  intros Hfd. unfold lcd_io.readStatus. rewrite bind_get_dev.
  destruct (Z.eqb_spec (fd d) (-1)) as [E | _]; [contradiction|].
  cbn [negb].
  destruct (readByte_ok d w 0 Hfd) as (w' & E & P).
  rewrite (bind_ok _ _ _ _ _ E). change (EOK =? EOK) with true. cbv iota.
  step. exists w'. split; [reflexivity|exact P].
Qed.

Lemma GetStatus_ok d w :
  bus_ok d (oracle w) ->
  exists w',
    lcd_io.GetStatus PDEV (d, w)
    = Ok EOK (after_status (status_at (oracle w) (n_read w)) d, w') /\
    produces w w' (status_writes (reg d)) 2.
Proof.
  intros Hok. unfold lcd_io.GetStatus. rewrite bind_get_dev.
  destruct (Z.eqb_spec (fd d) (-1)) as [Hfd | Hfd]; cbn [negb].
  - destruct Hok as [Hok | (Hdev & Hop & Hio)]; [contradiction|].
    destruct (device d) as [path|] eqn:Edev; [|congruence].
    rewrite bind_sys_open.
    destruct (Z.eqb_spec (open_ret (oracle w) (n_open w)) (-1)) as [E | Hf];
      [apply Hop in E; contradiction|].
    cbn [negb]. rewrite bind_sys_ioctl. cbn [oracle n_ioctl after_open].
    destruct (Z.leb_spec 0 (ioctl_ret (oracle w) (n_ioctl w))) as [_ | E];
      [|specialize (Hio (n_ioctl w)); lia].
    set (f := open_ret (oracle w) (n_open w)) in *.
    set (w1 := after_ioctl f (address d) (after_open path w)).
    destruct (readStatus_ok (set_fd f d) w1 Hf) as (w2 & E2 & P2).
    unfold bind at 1. rewrite bind_mod_dev.
    rewrite E2. step.
    eexists. split.
    + unfold after_status. cbn [fd device busy exclusive address reg set_fd].
      rewrite Hfd, Edev. reflexivity.
    + destruct P2 as (Ho & Hn & t & Ht & Hw & Hr).
      split; [exact Ho|]. split; [exact Hn|].
      exists ([EvOpen path f; EvIoctl f (address d)
                 (ioctl_ret (oracle w) (n_ioctl w))] ++ t ++ [EvClose f]).
      split.
      * cbn [trace after_close]. rewrite Ht. unfold w1.
        cbn [trace after_ioctl after_open].
        repeat rewrite <- app_assoc. reflexivity.
      * rewrite !bus_writes_app, !bus_reads_app, Hw, Hr.
        cbn [bus_writes bus_reads flat_map app]. rewrite ?app_nil_r.
        cbn [oracle n_read w1 after_ioctl after_open reg set_fd]. split; reflexivity.
  - apply readStatus_ok; assumption.
Qed.

(** ** The busy poll and [writeByte] *)

Lemma after_status_twice a b d :
  after_status a (after_status b d) = after_status a d.
Proof. reflexivity. Qed.

Lemma busy_after_status o n d :
  busy (after_status (status_at o n) d) = busy_at o n.
Proof. reflexivity. Qed.

Lemma status_writes_RW r : Forall (fun b => RW_of b = true) (status_writes r).
Proof.
  unfold status_writes. repeat constructor; rewrite RW_of_pack; reflexivity.
Qed.

Lemma ready_at_S o n k :
  busy_at o n = true -> ready_at o (n + 2) k -> ready_at o n (S k).
Proof.
  intros Hb [Hlt Hk]. split.
  - intros [|j] Hj.
    + replace (n + 2 * 0)%nat with n by lia. exact Hb.
    + replace (n + 2 * S j)%nat with (n + 2 + 2 * j)%nat by lia.
      apply Hlt. lia.
  - replace (n + 2 * S k)%nat with (n + 2 + 2 * k)%nat by lia. exact Hk.
Qed.

Lemma ready_at_inv o n k :
  ready_at o n (S k) -> busy_at o n = true /\ ready_at o (n + 2) k.
Proof.
  intros [Hlt Hk]. split.
  - specialize (Hlt 0%nat ltac:(lia)).
    replace (n + 2 * 0)%nat with n in Hlt by lia. exact Hlt.
  - split.
    + intros j Hj. specialize (Hlt (S j) ltac:(lia)).
      replace (n + 2 * S j)%nat with (n + 2 + 2 * j)%nat in Hlt by lia.
      exact Hlt.
    + replace (n + 2 * S k)%nat with (n + 2 + 2 * k)%nat in Hk by lia.
      exact Hk.
Qed.

Lemma ready_at_0 o n : ready_at o n 0 -> busy_at o n = false.
Proof.
  intros [_ H]. replace (n + 2 * 0)%nat with n in H by lia. exact H.
Qed.

Lemma poll_ok k :
  forall fuel d w,
    bus_ok d (oracle w) -> (k < fuel)%nat ->
    ready_at (oracle w) (n_read w) k ->
    exists w' ws,
      lcd_io.poll fuel PDEV (d, w)
      = Ok EOK (after_status (status_at (oracle w) (n_read w + 2 * k)) d, w') /\
      produces w w' ws (2 * S k) /\
      Forall (fun b => RW_of b = true) ws.
Proof.
  induction k as [|k IH]; intros fuel d w Hok Hlt Hr;
    (destruct fuel as [|fuel]; [lia|]); cbn [lcd_io.poll];
    destruct (GetStatus_ok d w Hok) as (w1 & E1 & P1);
    rewrite (bind_ok _ _ _ _ _ E1), bind_get_dev, busy_after_status.
  - rewrite (ready_at_0 _ _ Hr).
    exists w1, (status_writes (reg d)). split; [|split].
    + replace (n_read w + 2 * 0)%nat with (n_read w) by lia. reflexivity.
    + exact P1.
    + apply status_writes_RW.
  - destruct (ready_at_inv _ _ _ Hr) as [Hb Hr'].
    rewrite Hb.
    pose proof P1 as (Ho & Hn & _).
    destruct (IH fuel (after_status (status_at (oracle w) (n_read w)) d) w1)
      as (w2 & ws & E2 & P2 & F2).
    + rewrite Ho. exact Hok.
    + lia.
    + rewrite Ho, Hn. exact Hr'.
    + exists w2, (status_writes (reg d) ++ ws). split; [|split].
      * rewrite E2, after_status_twice, Ho, Hn.
        replace (n_read w + 2 + 2 * k)%nat with (n_read w + 2 * S k)%nat by lia.
        reflexivity.
      * replace (2 * S (S k))%nat with (2 + 2 * S k)%nat by lia.
        exact (produces_trans _ _ _ _ _ _ _ P1 P2).
      * apply Forall_app. split; [apply status_writes_RW|exact F2].
Qed.

Lemma poll_inv fuel :
  forall d w r s',
    bus_ok d (oracle w) ->
    lcd_io.poll fuel PDEV (d, w) = Ok r s' ->
    exists k, (k < fuel)%nat /\ ready_at (oracle w) (n_read w) k.
Proof.
  induction fuel as [|fuel IH]; intros d w r s' Hok H; [discriminate|].
  cbn [lcd_io.poll] in H.
  destruct (GetStatus_ok d w Hok) as (w1 & E1 & P1).
  rewrite (bind_ok _ _ _ _ _ E1), bind_get_dev, busy_after_status in H.
  destruct (busy_at (oracle w) (n_read w)) eqn:Hb.
  - pose proof P1 as (Ho & Hn & _).
    apply IH in H; [|rewrite Ho; exact Hok].
    destruct H as (k & Hk & Hr). rewrite Ho, Hn in Hr.
    exists (S k). split; [lia|]. apply ready_at_S; assumption.
  - exists 0%nat. split; [lia|]. split; [intros j Hj; lia|].
    replace (n_read w + 2 * 0)%nat with (n_read w) by lia. exact Hb.
Qed.

(** What [writeByte] does when the bus can be used and the poll is
    answered at its [k]-th request. *)
Lemma writeByte_ok k fuel rs val d w :
  bus_ok d (oracle w) -> (k < fuel)%nat ->
  ready_at (oracle w) (n_read w) k ->
  exists w' ws,
    lcd_io.writeByte fuel PDEV rs val (d, w)
    = Ok EOK (after_status (status_at (oracle w) (n_read w + 2 * k)) d, w') /\
    produces w w' (byte_writes (negb (u8 rs =? 0)) (u8 val) (reg d) ++ ws)
      (2 * S k) /\
    Forall (fun b => RW_of b = true) ws.
Proof.
  intros Hok Hlt Hr. unfold lcd_io.writeByte.
  rewrite !bind_mod_reg.
  set (rsb := negb (u8 rs =? 0)).
  set (hi := Z.shiftr (Z.land (u8 val) 0xF0) 4).
  set (lo := Z.land (u8 val) 0x0F).
  set (d1 := set_reg _ (set_reg _ (set_reg _ d))).
  assert (Hr1 : reg d1 = staged rsb hi (reg d)) by reflexivity.
  destruct (writeReg_ok d1 w Hok) as (w1 & E1 & P1).
  rewrite (bind_ok _ _ _ _ _ E1).
  assert (Ho1 : oracle w1 = oracle w) by apply P1.
  destruct (latch_ok d1 w1) as (w2 & E2 & P2); [rewrite Ho1; exact Hok|].
  rewrite (bind_ok _ _ _ _ _ E2), bind_mod_reg.
  set (d2 := set_reg _ (set_reg _ d1)).
  assert (Hr2 : reg d2 = staged rsb lo (set_EN false (reg d))) by reflexivity.
  assert (Ho2 : oracle w2 = oracle w) by (destruct P2 as (-> & _); exact Ho1).
  destruct (writeReg_ok d2 w2) as (w3 & E3 & P3); [rewrite Ho2; exact Hok|].
  rewrite (bind_ok _ _ _ _ _ E3).
  assert (Ho3 : oracle w3 = oracle w) by (destruct P3 as (-> & _); exact Ho2).
  destruct (latch_ok d2 w3) as (w4 & E4 & P4); [rewrite Ho3; exact Hok|].
  rewrite (bind_ok _ _ _ _ _ E4).
  assert (Ho4 : oracle w4 = oracle w) by (destruct P4 as (-> & _); exact Ho3).
  pose proof (produces_trans _ _ _ _ _ _ _
                (produces_trans _ _ _ _ _ _ _
                   (produces_trans _ _ _ _ _ _ _ P1 P2) P3) P4) as P.
  assert (Hn4 : n_read w4 = n_read w) by (destruct P as (_ & -> & _); lia).
  destruct (poll_ok k fuel (set_reg (set_EN false (reg d2)) d2) w4)
    as (w5 & ws & E5 & P5 & F5).
  { rewrite Ho4. exact Hok. }
  { exact Hlt. }
  { rewrite Ho4, Hn4. exact Hr. }
  exists w5, ws. split; [|split; [|exact F5]].
  - rewrite E5, Ho4, Hn4. reflexivity.
  - pose proof (produces_trans _ _ _ _ _ _ _ P P5) as P'.
    cbn [Nat.add] in P'.
    unfold byte_writes, nibble_writes.
    unfold regval in P'. rewrite Hr1, Hr2 in P'.
    cbn [app] in P'. cbn [app]. exact P'.
Qed.

(** ** Latch cycles as the controller sees them *)

Lemma land_15_idem x : Z.land (Z.land x 0xF) 0xF = Z.land x 0xF.
Proof. rewrite <- Z.land_assoc. reflexivity. Qed.

Lemma u8_range z : 0 <= u8 z < 256.
Proof. unfold u8. apply Z.mod_pos_bound. lia. Qed.

Lemma u8_small z : 0 <= z < 256 -> u8 z = z.
Proof. intros H. unfold u8. apply Z.mod_small. exact H. Qed.

Lemma hi_nib_div v : 0 <= v < 256 -> hi_nib v = v / 16.
Proof.
  intros H. unfold hi_nib.
  rewrite Z.shiftr_land. change (Z.shiftr 0xF0 4) with 0xF.
  rewrite land_15_idem.
  change 0xF with (Z.ones 4). rewrite Z.land_ones by lia.
  rewrite Z.shiftr_div_pow2 by lia. change (2 ^ 4) with 16.
  apply Z.mod_small. split.
  - apply Z.div_pos; lia.
  - apply Z.div_lt_upper_bound; lia.
Qed.

Lemma lo_nib_mod v : lo_nib v = v mod 16.
Proof.
  unfold lo_nib. rewrite land_15_idem.
  change 0xF with (Z.ones 4). rewrite Z.land_ones by lia. reflexivity.
Qed.

Lemma nibbles_join v : 0 <= v < 256 -> 16 * hi_nib v + lo_nib v = v.
Proof.
  intros H. rewrite hi_nib_div, lo_nib_mod by exact H.
  symmetry. apply Z.div_mod. lia.
Qed.

Lemma quiet_calm e p : quiet p -> calm e p.
Proof.
  unfold quiet, calm. intros [-> | ->]; [reflexivity|].
  cbn [negb]. apply andb_false_r.
Qed.

Lemma quiet_edge p b : quiet p -> edge p b = false.
Proof.
  unfold quiet, edge. intros [-> | ->]; [reflexivity|].
  cbn [negb]. apply andb_false_r.
Qed.

Lemma latched_from_reads ws :
  forall p rest,
    quiet p -> Forall (fun b => RW_of b = true) ws ->
    exists p', quiet p' /\ latched_from p (ws ++ rest) = latched_from p' rest.
Proof.
  induction ws as [|b ws IH]; intros p rest Hq HF.
  - exists p. split; [exact Hq|reflexivity].
  - inversion HF as [|b' ws' Hb HF']; subst.
    destruct (IH b rest) as (p' & Hq' & E); [right; exact Hb|exact HF'|].
    exists p'. split; [exact Hq'|].
    cbn [app latched_from]. rewrite (quiet_edge _ _ Hq). exact E.
Qed.

Lemma carries_reads ws :
  Forall (fun b => RW_of b = true) ws -> carries false ws [].
Proof.
  intros HF p rest Hc. apply latched_from_reads; [|exact HF].
  unfold calm in Hc. unfold quiet.
  destruct (EN_of p); [|left; reflexivity].
  destruct (RW_of p); [right; reflexivity|discriminate].
Qed.

Lemma carries_nibble rs nib r :
  carries (EN r) (nibble_writes (staged rs nib r)) [(rs, Z.land nib 0xF)].
Proof.
  intros p rest Hc. exists (pack (set_EN false (staged rs nib r))).
  split.
  - left. rewrite EN_of_pack. reflexivity.
  - unfold nibble_writes. cbn [app latched_from]. unfold edge.
    rewrite !EN_of_pack, !RW_of_pack, !RS_of_pack, !D4_of_pack.
    cbn [EN RW RS D4 set_EN staged set_D4 set_RW set_RS].
    unfold calm in Hc. rewrite Hc, land_15_idem.
    destruct (EN r); reflexivity.
Qed.

Lemma carries_app e ws1 ns1 ws2 ns2 :
  carries e ws1 ns1 -> carries false ws2 ns2 ->
  carries e (ws1 ++ ws2) (ns1 ++ ns2).
Proof.
  intros H1 H2 p rest Hc.
  destruct (H1 p (ws2 ++ rest) Hc) as (p1 & Hq1 & E1).
  destruct (H2 p1 rest (quiet_calm _ _ Hq1)) as (p2 & Hq2 & E2).
  exists p2. split; [exact Hq2|].
  rewrite <- app_assoc, E1, E2. apply app_assoc.
Qed.

Lemma carries_byte rs v r ws :
  Forall (fun b => RW_of b = true) ws ->
  carries (EN r) (byte_writes rs v r ++ ws) [(rs, hi_nib v); (rs, lo_nib v)].
Proof.
  intros HF. unfold byte_writes.
  change [(rs, hi_nib v); (rs, lo_nib v)]
    with (([(rs, hi_nib v)] ++ [(rs, lo_nib v)]) ++ []).
  apply carries_app; [apply carries_app|apply carries_reads; exact HF].
  - apply carries_nibble.
  - apply (carries_nibble rs (Z.land v 0x0F) (set_EN false r)).
Qed.



Lemma carries_latched e ws ns :
  carries e ws ns -> EN_of (hd 0 ws) = e -> latched ws = ns.
Proof.
  intros H He. destruct ws as [|b ws].
  - destruct (H 0 []) as (p' & _ & E); [reflexivity|].
    cbn in E. rewrite app_nil_r in E. exact E.
  - cbn [hd] in He. cbn [latched].
    destruct (H b []) as (p' & _ & E).
    { unfold calm. rewrite He. destruct e; reflexivity. }
    rewrite app_nil_r in E. cbn [app latched_from] in E.
    rewrite app_nil_r in E.
    unfold edge in E. rewrite He in E.
    replace (e && negb e) with false in E by (destruct e; reflexivity).
    exact E.
Qed.

(** ** Opening, closing and single transfers *)

(** [writeReg] always returns and never changes the device context. *)
Lemma writeReg_total d w :
  exists r w', lcd_io.writeReg PDEV (d, w) = Ok r (d, w').
Proof.
  unfold lcd_io.writeReg. rewrite bind_get_dev.
  destruct (negb (fd d =? -1)).
  - step. eauto.
  - destruct (device d) as [path|]; [|unfold ret; eauto].
    rewrite bind_sys_open.
    destruct (negb (open_ret (oracle w) (n_open w) =? -1)).
    + rewrite bind_sys_ioctl.
      destruct (0 <=? _); run; cbn [fst snd]; eauto.
    + unfold sys_errno. eauto.
Qed.

(** A run of [writeByte] that returns was answered by the controller. *)
Lemma writeByte_inv fuel rs val d w r s' :
  bus_ok d (oracle w) ->
  lcd_io.writeByte fuel PDEV rs val (d, w) = Ok r s' ->
  exists k, (k < fuel)%nat /\ ready_at (oracle w) (n_read w) k.
Proof.
  intros Hok H. unfold lcd_io.writeByte in H.
  rewrite !bind_mod_reg in H.
  set (d1 := set_reg _ (set_reg _ (set_reg _ d))) in H.
  destruct (writeReg_ok d1 w Hok) as (w1 & E1 & P1).
  rewrite (bind_ok _ _ _ _ _ E1) in H.
  assert (Ho1 : oracle w1 = oracle w) by apply P1.
  destruct (latch_ok d1 w1) as (w2 & E2 & P2); [rewrite Ho1; exact Hok|].
  rewrite (bind_ok _ _ _ _ _ E2), bind_mod_reg in H.
  set (d2 := set_reg _ (set_reg _ d1)) in H.
  assert (Ho2 : oracle w2 = oracle w) by (destruct P2 as (-> & _); exact Ho1).
  destruct (writeReg_ok d2 w2) as (w3 & E3 & P3); [rewrite Ho2; exact Hok|].
  rewrite (bind_ok _ _ _ _ _ E3) in H.
  assert (Ho3 : oracle w3 = oracle w) by (destruct P3 as (-> & _); exact Ho2).
  destruct (latch_ok d2 w3) as (w4 & E4 & P4); [rewrite Ho3; exact Hok|].
  rewrite (bind_ok _ _ _ _ _ E4) in H.
  assert (Ho4 : oracle w4 = oracle w) by (destruct P4 as (-> & _); exact Ho3).
  pose proof (produces_trans _ _ _ _ _ _ _
                (produces_trans _ _ _ _ _ _ _
                   (produces_trans _ _ _ _ _ _ _ P1 P2) P3) P4) as P.
  assert (Hn4 : n_read w4 = n_read w) by (destruct P as (_ & -> & _); lia).
  apply poll_inv in H; [|rewrite Ho4; exact Hok].
  rewrite Ho4, Hn4 in H. exact H.
Qed.

Lemma LCDOpen_ok d w :
  can_open d w ->
  exists f w' ws,
    lcd_io.LCDOpen PDEV (d, w) = Ok EOK (set_fd f d, w') /\
    f <> -1 /\
    produces w w' ws 0 /\
    (ws = [] \/ ws = [regval d]).
Proof.
  intros Hc. unfold lcd_io.LCDOpen. rewrite bind_get_dev.
  destruct (Z.eqb_spec (fd d) (-1)) as [Hfd | Hfd].
  - destruct Hc as [Hc | (Hdev & Hop & Hio)]; [contradiction|].
    destruct (device d) as [path|]; [|congruence].
    rewrite bind_sys_open.
    destruct (Z.eqb_spec (open_ret (oracle w) (n_open w)) (-1)) as [E | Hf];
      [contradiction|].
    cbn [negb]. rewrite bind_sys_ioctl. cbn [oracle n_ioctl after_open].
    destruct (Z.leb_spec 0 (ioctl_ret (oracle w) (n_ioctl w))) as [_ | E];
      [|lia].
    step. eexists _, _, [regval d]. split; [reflexivity|].
    split; [exact Hf|]. split; [produced|]. right. reflexivity.
  - exists (fd d), w, []. split; [destruct d; reflexivity|].
    split; [exact Hfd|]. split; [apply produces_refl|]. left. reflexivity.
Qed.

Lemma LCDClose_ok d w :
  exists d' w',
    lcd_io.LCDClose PDEV (d, w) = Ok EOK (d', w') /\
    produces w w' [] 0 /\
    (d' = d \/ d' = set_fd (-1) d).
Proof.
  unfold lcd_io.LCDClose. rewrite bind_get_dev.
  destruct (negb (fd d =? -1) && eqb (exclusive d) false).
  - step. eexists _, _. split; [reflexivity|]. split; [produced|].
    right. reflexivity.
  - exists d, w. split; [reflexivity|]. split; [apply produces_refl|].
    left. reflexivity.
Qed.

Lemma u8_lor x y : u8 (Z.lor x y) = Z.lor (u8 x) (u8 y).
Proof.
  unfold u8. change 256 with (2 ^ 8).
  rewrite <- !Z.land_ones by lia. apply Z.land_lor_distr_l.
Qed.


Lemma bytes_of_nibbles rs v rest :
  bytes_of (nibbles rs v ++ rest) = (rs, u8 v) :: bytes_of rest.
Proof.
  unfold nibbles. cbn [app bytes_of].
  rewrite (nibbles_join (u8 v) (u8_range v)). reflexivity.
Qed.


Lemma produces_oracle w w' ws k : produces w w' ws k -> oracle w' = oracle w.
Proof. intros H. apply H. Qed.

(** The byte [writeByte] sends makes one instruction or data byte on the
    controller's side. *)
Lemma writeByte_carries fuel rs val d w :
  bus_ok d (oracle w) -> responsive (oracle w) fuel ->
  exists st w' ws k,
    lcd_io.writeByte fuel PDEV rs val (d, w)
    = Ok EOK (after_status st d, w') /\
    produces w w' ws k /\
    carries (EN (reg d)) ws (nibbles (negb (u8 rs =? 0)) val) /\
    (forall rest, EN_of (hd 0 (ws ++ rest)) = EN (reg d)).
Proof.
  intros Hok Hresp. destruct (Hresp (n_read w)) as (k & Hk & Hr).
  destruct (writeByte_ok k fuel rs val d w Hok Hk Hr) as (w' & ws & E & P & F).
  eexists _, w', _, _. split; [exact E|]. split; [exact P|]. split.
  - apply carries_byte. exact F.
  - intros rest. unfold byte_writes, nibble_writes. cbn [app hd].
    rewrite EN_of_pack. reflexivity.
Qed.

(** ** [DisplayLine] *)









(** * The properties of the specification *)

Lemma idle_responsive : responsive (idle_at 0) 1.
Proof.
  intros n. exists 0%nat. split; [lia|]. split; [intros j Hj; lia|].
  replace (n + 2 * 0)%nat with n by lia.
  unfold busy_at, status_at, idle_at. cbn [read_ret].
  destruct (Nat.even n), (Nat.even (S n)); reflexivity.
Qed.

Lemma idle_bus_ok : bus_ok lcd_io.InitDev (idle_at 0).
Proof.
  right. split; [discriminate|]. split; intros n; cbn; lia.
Qed.










(** A run of [writeByte] on a usable bus returns EOK. *)
Lemma writeByte_result fuel rs val d w r d' w' :
  bus_ok d (oracle w) ->
  lcd_io.writeByte fuel PDEV rs val (d, w) = Ok r (d', w') ->
  r = EOK /\ oracle w' = oracle w /\ fd d' = fd d /\ device d' = device d.
Proof.
  intros Hok H.
  destruct (writeByte_inv _ _ _ _ _ _ _ Hok H) as (k & Hk & Hr).
  destruct (writeByte_ok k fuel rs val d w Hok Hk Hr) as (w1 & ws & E & P & _).
  rewrite E in H. injection H as <- <- <-.
  split; [reflexivity|]. split; [apply P|]. split; reflexivity.
Qed.

(** With the functions of [lcd_io.c], once a connection is held
    [Set4BitMode] cannot report a failure. *)
Lemma Set4BitMode_held fuel d w r s' :
  fd d <> -1 ->
  lcd_io.Set4BitMode fuel PDEV (d, w) = Ok r s' ->
  r = EOK.
Proof.
  intros Hfd H. unfold lcd_io.Set4BitMode in H.
  unfold bind at 1 in H.
  destruct (lcd_io.writeByte fuel PDEV 0 56 (d, w)) as [rc1 [d1 w1]| |] eqn:E1;
    try discriminate.
  destruct (writeByte_result _ _ _ _ _ _ _ _ (or_introl Hfd) E1)
    as (-> & Ho1 & Hfd1 & _).
  rewrite !bind_mod_reg in H.
  set (d2 := set_reg _ (set_reg _ (set_reg _ d1))) in H.
  assert (Hok2 : bus_ok d2 (oracle w1)) by (left; cbn; congruence).
  destruct (writeReg_ok d2 w1 Hok2) as (w2 & E2 & P2).
  rewrite (bind_ok _ _ _ _ _ E2) in H.
  destruct (latch_ok d2 w2) as (w3 & E3 & P3);
    [rewrite (produces_oracle _ _ _ _ P2); exact Hok2|].
  rewrite (bind_ok _ _ _ _ _ E3) in H.
  unfold bind at 1 in H.
  destruct (lcd_io.writeByte fuel PDEV 0 40 _) as [rc2 [d4 w4]| |] eqn:E4;
    try discriminate.
  apply writeByte_result in E4; [|left; cbn; congruence].
  destruct E4 as (-> & _).
  cbn in H. injection H as <- _. reflexivity.
Qed.

Lemma bind_inv {A B} (m : M A) (k : A -> M B) s b s' :
  bind m k s = Ok b s' ->
  exists a s1, m s = Ok a s1 /\ k a s1 = Ok b s'.
Proof.
  unfold bind. destruct (m s) as [a s1| |]; try discriminate. eauto.
Qed.

(** With the functions of [lcd_io.c], a run of [LCDInit] that got its
    connection returns EOK: no function-set failure is ever seen. *)
Lemma LCDInit_held fuel d w r s' :
  can_open d w ->
  lcd_ctrl.LCDInit (driver fuel) PDEV (d, w) = Ok r s' ->
  r = EOK.
Proof.
  intros Hopen H. unfold lcd_ctrl.LCDInit in H. cbn [LCDOpen driver] in H.
  destruct (LCDOpen_ok d w Hopen) as (f & w1 & ws & E1 & Hf & _).
  rewrite (bind_ok _ _ _ _ _ E1) in H.
  change (EOK =? EOK) with true in H. cbv iota in H.
  apply bind_inv in H. destruct H as (r2 & s2 & E2 & H).
  cbn [Set4BitMode driver] in E2.
  apply Set4BitMode_held in E2; [|exact Hf]. subst r2.
  apply bind_inv in H. destruct H as (u & s3 & _ & H).
  apply bind_inv in H. destruct H as (u' & s4 & _ & H).
  injection H as <- _. reflexivity.
Qed.







Lemma land_127_range st : 0 <= Z.land st 0x7F <= 127.
Proof.
  assert (E : Z.land st 0x7F = st mod 128)
    by (change 0x7F with (Z.ones 7); rewrite Z.land_ones by lia; reflexivity).
  rewrite E.
  assert (0 <= st mod 128 < 128) by (apply Z.mod_pos_bound; lia). lia.
Qed.

Lemma land_63_mod a : Z.land a 0x3F = a mod 0x40.
Proof.
  change 0x3F with (Z.ones 6). rewrite Z.land_ones by lia. reflexivity.
Qed.

(** C5.  For an address [a] in 0..127, [SetADD] is the one call
    [writeByte( pDev, 0, 0x80 | a )]; on a bus that can be used and a
    controller that answers, the controller takes the single instruction
    byte [0x80 | a].  A status read that finds the address counter at [a]
    stores row 2 when [a >= 0x40] and row 1 otherwise, and column
    [(a mod 0x40) + 1]. *)
Theorem SetADD_and_cursor (a : Z) (fuel : nat) (d : LCDDev) (w : World)
  (ds : LCDDev) (ws : World) :
  0 <= a <= 127 ->
  bus_ok d (oracle w) ->
  responsive (oracle w) fuel ->
  bus_ok ds (oracle ws) ->
  Z.land (status_at (oracle ws) (n_read ws)) 0x7F = a ->
  (forall io s,
      lcd_ctrl.SetADD io PDEV a s = writeByte io PDEV 0 (Z.lor 0x80 a) s) /\
  (exists d' w' delta,
      lcd_ctrl.SetADD (driver fuel) PDEV a (d, w) = Ok EOK (d', w') /\
      trace w' = trace w ++ delta /\
      bytes_of (latched (bus_writes delta)) = [(false, Z.lor 0x80 a)]) /\
  (exists d' w',
      lcd_io.GetStatus PDEV (ds, ws) = Ok EOK (d', w') /\
      AddressCounter d' = a /\
      (cy d' = 2 <-> 0x40 <= a) /\
      (cy d' = 1 <-> a < 0x40) /\
      cx d' = a mod 0x40 + 1).
Proof.
  intros Ha Hok Hresp Hoks Hst.
  assert (Hu : u8 a = a) by (apply u8_small; lia).
  split; [|split].
  - intros io s. unfold lcd_ctrl.SetADD. rewrite Hu. reflexivity.
  - unfold lcd_ctrl.SetADD. rewrite Hu. cbn [writeByte driver].
    destruct (writeByte_carries fuel 0 (Z.lor 0x80 a) d w Hok Hresp)
      as (st & w' & bs & k & E & P & C & Hhd).
    destruct P as (_ & _ & delta & Ht & Hw & _).
    exists (after_status st d), w', delta.
    split; [exact E|]. split; [exact Ht|].
    rewrite Hw, (carries_latched _ _ _ C).
    + rewrite <- (app_nil_r (nibbles _ _)), bytes_of_nibbles.
      change (u8 0 =? 0) with true. cbn [negb bytes_of].
      rewrite u8_lor, Hu. reflexivity.
    + rewrite <- (app_nil_r bs). apply Hhd.
  - destruct (GetStatus_ok ds ws Hoks) as (w' & E & _).
    eexists _, w'. split; [exact E|].
    cbn [AddressCounter cx cy after_status]. rewrite Hst.
    split; [reflexivity|]. rewrite land_63_mod.
    destruct (Z.leb_spec 0x40 a); repeat split; intros; lia.
Qed.

(** The address 0x40, the start of the second row. *)
Lemma SetADD_and_cursor_witness :
  (0 <= 0x40 <= 127 /\
   bus_ok lcd_io.InitDev (oracle (boot (idle_at 0))) /\
   responsive (oracle (boot (idle_at 0))) 1 /\
   bus_ok lcd_io.InitDev (oracle (boot (idle_at 0x40))) /\
   Z.land (status_at (oracle (boot (idle_at 0x40)))
             (n_read (boot (idle_at 0x40)))) 0x7F = 0x40) /\
  exists d' w',
    lcd_io.GetStatus PDEV (lcd_io.InitDev, boot (idle_at 0x40))
    = Ok EOK (d', w') /\
    AddressCounter d' = 0x40 /\ cy d' = 2 /\ cx d' = 1.
Proof.
  assert (H1 : 0 <= 0x40 <= 127) by lia.
  assert (H4 : bus_ok lcd_io.InitDev (oracle (boot (idle_at 0x40))))
    by (right; split; [discriminate|split; intros n; cbn; lia]).
  assert (H5 : Z.land (status_at (oracle (boot (idle_at 0x40)))
                         (n_read (boot (idle_at 0x40)))) 0x7F = 0x40)
    by reflexivity.
  split.
  { split; [exact H1|]. split; [exact idle_bus_ok|].
    split; [exact idle_responsive|]. split; [exact H4|exact H5]. }
  destruct (SetADD_and_cursor 0x40 1 lcd_io.InitDev (boot (idle_at 0))
              lcd_io.InitDev (boot (idle_at 0x40))
              H1 idle_bus_ok idle_responsive H4 H5)
    as (_ & _ & d' & w' & E & Hac & Hy & _ & Hx).
  exists d', w'. split; [exact E|]. split; [exact Hac|].
  split; [apply Hy; lia|exact Hx].
Defined.

(** C6.  After a status read the address counter is in 0..127, and
    [GetCursorX] and [GetCursorY] return the stored column and row: the
    column is [(AddressCounter mod 0x40) + 1] and lies in 1..64, within
    1..16 exactly when [AddressCounter mod 0x40 < 16]; the row lies in
    1..2. *)
Theorem cursor_ranges d w (x0 y0 : Z) :
  bus_ok d (oracle w) ->
  exists d' w',
    lcd_io.GetStatus PDEV (d, w) = Ok EOK (d', w') /\
    0 <= AddressCounter d' <= 127 /\
    lcd_io.GetCursorX PDEV (Some x0) (d', w') = Ok (EOK, Some (cx d')) (d', w') /\
    lcd_io.GetCursorY PDEV (Some y0) (d', w') = Ok (EOK, Some (cy d')) (d', w') /\
    cx d' = AddressCounter d' mod 0x40 + 1 /\
    1 <= cx d' <= 64 /\
    1 <= cy d' <= 2 /\
    (cx d' <= 16 <-> AddressCounter d' mod 0x40 < 16).
Proof.
  intros Hok. destruct (GetStatus_ok d w Hok) as (w' & E & _).
  eexists _, w'. split; [exact E|].
  split; [apply land_127_range|]. split; [reflexivity|].
  split; [reflexivity|].
  cbn [AddressCounter cx cy after_status].
  set (ac := Z.land (status_at (oracle w) (n_read w)) 0x7F).
  pose proof (land_127_range (status_at (oracle w) (n_read w))) as Hac.
  fold ac in Hac. rewrite land_63_mod.
  assert (0 <= ac mod 0x40 < 0x40) by (apply Z.mod_pos_bound; lia).
  split; [reflexivity|].
  destruct (0x40 <=? ac); repeat split; intros; lia.
Qed.

(** The address counter at 0x10. *)
Lemma cursor_ranges_witness :
  bus_ok lcd_io.InitDev (oracle (boot (idle_at 0x10))) /\
  exists d' w',
    lcd_io.GetStatus PDEV (lcd_io.InitDev, boot (idle_at 0x10))
    = Ok EOK (d', w') /\
    1 <= cx d' <= 64 /\ 1 <= cy d' <= 2.
Proof.
  assert (H : bus_ok lcd_io.InitDev (oracle (boot (idle_at 0x10))))
    by (right; split; [discriminate|split; intros n; cbn; lia]).
  split; [exact H|].
  destruct (cursor_ranges lcd_io.InitDev (boot (idle_at 0x10)) 0 0 H)
    as (d' & w' & E & _ & _ & _ & _ & Hx & Hy & _).
  exists d', w'. split; [exact E|]. split; [exact Hx|exact Hy].
Defined.

(** C6 does not hold as the specification words it.  With the address
    counter at 0x10, the position after a full first line, [GetCursorX]
    returns 17. *)
Lemma cursor_counterexample :
  match lcd_io.GetStatus PDEV (lcd_io.InitDev, boot (idle_at 0x10)) with
  | Ok r s' =>
    r = EOK /\
    AddressCounter (fst s') = 0x10 /\
    lcd_io.GetCursorX PDEV (Some 0) s' = Ok (EOK, Some 17) s' /\
    lcd_io.GetCursorY PDEV (Some 0) s' = Ok (EOK, Some 1) s'
  | _ => False
  end.
Proof. vm_compute. repeat split. Qed.

(** C7.  [LCDClose] with the exclusive flag set changes neither the
    device context nor the bus; it returns EOK in every case; and
    [SetExclusive( pDev, false )] followed at once by [LCDClose] leaves
    the descriptor field at -1, closing the descriptor when one was
    held. *)
Theorem LCDClose_exclusive d w :
  (exclusive d = true -> lcd_io.LCDClose PDEV (d, w) = Ok EOK (d, w)) /\
  (exists s', lcd_io.LCDClose PDEV (d, w) = Ok EOK s') /\
  (exists d' w',
      (lcd_io.SetExclusive PDEV false ;; lcd_io.LCDClose PDEV) (d, w)
      = Ok EOK (d', w') /\
      fd d' = -1 /\
      (fd d <> -1 -> trace w' = trace w ++ [EvClose (fd d)]) /\
      (fd d = -1 -> w' = w)).
Proof.
  split; [|split].
  - intros Hex. unfold lcd_io.LCDClose. rewrite bind_get_dev, Hex.
    rewrite andb_false_r. reflexivity.
  - destruct (LCDClose_ok d w) as (d' & w' & E & _). eauto.
  - assert (E : lcd_io.SetExclusive PDEV false (d, w)
                 = Ok EINVAL (set_exclusive false d, w)) by reflexivity.
    rewrite (bind_ok _ _ _ _ _ E). unfold lcd_io.LCDClose.
    rewrite bind_get_dev.
    cbn [fd exclusive set_exclusive eqb].
    destruct (Z.eqb_spec (fd d) (-1)) as [Hfd | Hfd]; cbn [negb andb].
    + eexists _, w. split; [reflexivity|]. split; [exact Hfd|].
      split; [contradiction|reflexivity].
    + step. eexists _, _. split; [reflexivity|]. split; [reflexivity|].
      split; [reflexivity|contradiction].
Qed.

(** [LCDClose] on a device that holds descriptor 3 in exclusive mode. *)
Lemma LCDClose_exclusive_witness :
  exclusive held_exclusive = true /\
  lcd_io.LCDClose PDEV (held_exclusive, boot (idle_at 0))
  = Ok EOK (held_exclusive, boot (idle_at 0)).
Proof.
  split; [reflexivity|].
  exact (proj1 (LCDClose_exclusive held_exclusive (boot (idle_at 0))) eq_refl).
Defined.

(** C8.  [writeReg] never changes the device context, the descriptor
    field included.  With a connection held it makes one write of the
    register image on that descriptor and nothing else.  With none held
    it opens the bus device, addresses it, makes the one write and closes
    again, provided a bus device is named and [open] and [ioctl] succeed;
    it returns ENODEV without a system call when none is named, the
    [errno] of a failed [open] without a write or a close, and ENXIO
    after a failed [ioctl], closing without a write. *)
Theorem writeReg_transfer d w :
  (exists r w', lcd_io.writeReg PDEV (d, w) = Ok r (d, w')) /\
  (fd d <> -1 ->
   exists w',
     lcd_io.writeReg PDEV (d, w) = Ok EOK (d, w') /\
     trace w' = trace w ++ [EvWrite (fd d) (regval d)]) /\
  (fd d = -1 ->
   (device d = None -> lcd_io.writeReg PDEV (d, w) = Ok ENODEV (d, w)) /\
   (forall path f,
      device d = Some path ->
      f = open_ret (oracle w) (n_open w) ->
      (f = -1 ->
       exists w',
         lcd_io.writeReg PDEV (d, w)
         = Ok (open_errno (oracle w) (n_open w)) (d, w') /\
         trace w' = trace w ++ [EvOpen path f]) /\
      (f <> -1 -> ioctl_ret (oracle w) (n_ioctl w) < 0 ->
       exists w',
         lcd_io.writeReg PDEV (d, w) = Ok ENXIO (d, w') /\
         trace w' = trace w ++
           [EvOpen path f;
            EvIoctl f (address d) (ioctl_ret (oracle w) (n_ioctl w));
            EvClose f]) /\
      (f <> -1 -> 0 <= ioctl_ret (oracle w) (n_ioctl w) ->
       exists w',
         lcd_io.writeReg PDEV (d, w) = Ok EOK (d, w') /\
         trace w' = trace w ++
           [EvOpen path f;
            EvIoctl f (address d) (ioctl_ret (oracle w) (n_ioctl w));
            EvWrite f (regval d);
            EvClose f]))).
Proof.
  split; [apply writeReg_total|]. split.
  - intros Hfd. unfold lcd_io.writeReg. rewrite bind_get_dev.
    destruct (Z.eqb_spec (fd d) (-1)) as [E | _]; [contradiction|].
    cbn [negb]. step. eexists. split; reflexivity.
  - intros Hfd. unfold lcd_io.writeReg. rewrite bind_get_dev, Hfd.
    change (-1 =? -1) with true. cbn [negb]. split.
    + intros ->. reflexivity.
    + intros path f -> ->. rewrite bind_sys_open.
      split; [|split].
      * intros E. rewrite E. change (-1 =? -1) with true. cbn [negb].
        eexists. split; [reflexivity|].
        cbn [trace after_open]. rewrite E. reflexivity.
      * intros Hf Hio.
        destruct (Z.eqb_spec (open_ret (oracle w) (n_open w)) (-1));
          [contradiction|].
        cbn [negb]. rewrite bind_sys_ioctl. cbn [oracle n_ioctl after_open].
        destruct (Z.leb_spec 0 (ioctl_ret (oracle w) (n_ioctl w))); [lia|].
        step. eexists. split; [reflexivity|].
        cbn [trace after_close after_ioctl after_open].
        repeat rewrite <- app_assoc. reflexivity.
      * intros Hf Hio.
        destruct (Z.eqb_spec (open_ret (oracle w) (n_open w)) (-1));
          [contradiction|].
        cbn [negb]. rewrite bind_sys_ioctl. cbn [oracle n_ioctl after_open].
        destruct (Z.leb_spec 0 (ioctl_ret (oracle w) (n_ioctl w))); [|lia].
        run. eexists. split; [reflexivity|].
        cbn [fst snd trace after_ioctl after_open].
        repeat rewrite <- app_assoc. reflexivity.
Qed.

(** [writeReg] on a fresh, closed device and an idle bus: the backlight
    bit alone, 0x08, is written between open and close. *)
Lemma writeReg_transfer_witness :
  fd lcd_io.InitDev = -1 /\
  exists w',
    lcd_io.writeReg PDEV (lcd_io.InitDev, boot (idle_at 0))
    = Ok EOK (lcd_io.InitDev, w') /\
    trace w'
    = [EvOpen "/dev/i2c-1"%string 3; EvIoctl 3 0x27 0; EvWrite 3 8; EvClose 3].
Proof.
  split; [reflexivity|].
  destruct (writeReg_transfer lcd_io.InitDev (boot (idle_at 0)))
    as (_ & _ & H).
  destruct (H eq_refl) as (_ & H').
  destruct (H' "/dev/i2c-1"%string 3 eq_refl eq_refl) as (_ & _ & H'').
  apply H''; cbn; lia.
Defined.

(** C8 does not hold for every device as the specification words it.
    With no connection held and no bus device to open, [writeReg] makes
    the one failed [open]: no transfer, no close, and the [errno] is
    returned. *)
Lemma writeReg_counterexample :
  match lcd_io.writeReg PDEV (lcd_io.InitDev, boot no_bus) with
  | Ok r s' =>
    r = 2 /\ fst s' = lcd_io.InitDev /\
    trace (snd s') = [EvOpen "/dev/i2c-1"%string (-1)]
  | _ => False
  end.
Proof. vm_compute. repeat split. Qed.

(** C9.  [GetBacklight] after [SetBacklight( pDev, b )] yields [b], for
    [true] and for [false]; [GetAddress] after [SetAddress( pDev, a )]
    yields [a] for every 8-bit [a], 0x50 among them. *)
Theorem backlight_address_roundtrip d w (b out : bool) (a outa : Z) :
  0 <= a < 256 ->
  (exists r d1 w1,
      lcd_io.SetBacklight PDEV b (d, w) = Ok r (d1, w1) /\
      lcd_io.GetBacklight PDEV (Some out) (d1, w1)
      = Ok (EOK, Some b) (d1, w1)) /\
  (exists d1,
      lcd_io.SetAddress PDEV a (d, w) = Ok EOK (d1, w) /\
      lcd_io.GetAddress PDEV (Some outa) (d1, w) = Ok (EOK, Some a) (d1, w)).
Proof.
  intros Ha. split.
  - unfold lcd_io.SetBacklight. rewrite bind_mod_reg.
    destruct (writeReg_total
                (set_reg (set_LED (if eqb b true then true else false) (reg d)) d)
                w) as (r & w1 & E).
    rewrite (bind_ok _ _ _ _ _ E).
    eexists _, _, w1. split; [reflexivity|].
    unfold lcd_io.GetBacklight. rewrite bind_get_dev.
    cbn [reg set_reg LED set_LED]. destruct b; reflexivity.
  - unfold lcd_io.SetAddress. rewrite bind_mod_dev.
    eexists. split; [reflexivity|].
    unfold lcd_io.GetAddress. rewrite bind_get_dev.
    cbn [address set_address]. rewrite (u8_small a Ha). reflexivity.
Qed.

(** The address 0x50. *)
Lemma backlight_address_roundtrip_witness :
  0 <= 0x50 < 256 /\
  exists d1,
    lcd_io.SetAddress PDEV 0x50 (lcd_io.InitDev, boot (idle_at 0))
    = Ok EOK (d1, boot (idle_at 0)) /\
    lcd_io.GetAddress PDEV (Some 0) (d1, boot (idle_at 0))
    = Ok (EOK, Some 0x50) (d1, boot (idle_at 0)).
Proof.
  assert (H : 0 <= 0x50 < 256) by lia.
  split; [exact H|].
  exact (proj2 (backlight_address_roundtrip lcd_io.InitDev (boot (idle_at 0))
                  true false 0x50 0 H)).
Defined.

(** C10.  [SetBacklight] and [SetExclusive] return EINVAL on a device
    they have updated, the value they return for a null device: the
    result does not tell success from an invalid argument. *)
Theorem setters_return_EINVAL d w (v : bool) :
  (exists w',
      lcd_io.SetBacklight PDEV v (d, w)
      = Ok EINVAL (set_reg (set_LED v (reg d)) d, w')) /\
  lcd_io.SetExclusive PDEV v (d, w) = Ok EINVAL (set_exclusive v d, w) /\
  lcd_io.SetBacklight NULL v (d, w) = Ok EINVAL (d, w) /\
  lcd_io.SetExclusive NULL v (d, w) = Ok EINVAL (d, w).
Proof.
  split; [|repeat split].
  unfold lcd_io.SetBacklight. rewrite bind_mod_reg.
  replace (if eqb v true then true else false) with v by (destruct v; reflexivity).
  destruct (writeReg_total (set_reg (set_LED v (reg d)) d) w) as (r & w1 & E).
  rewrite (bind_ok _ _ _ _ _ E). exists w1. reflexivity.
Qed.
